(** * A push-based Observable / Observer / Subscription core

    Shallow embedding of [src/index.ts] (classes [Observer] and
    [Observable], interfaces [ObserverHandlers] and [Subscription]) and the
    lifecycle properties of a subscription run.

    How the TypeScript is read:
    - a callback supplied from outside (a handler, a teardown action) is an
      arbitrary procedure on the world outside the observer which either
      returns or throws; it does not call the observer or the subscription
      and does not reach the observer's fields, so a statement over all
      callbacks is a statement about the callbacks that leave the observer
      alone;
    - the observer is one mutable object per [subscribe] call; its fields
      are threaded through a state monad that also carries the outside
      world, and a throw leaves the mutations done so far in place;
    - calling an absent ([undefined]) function throws a [TypeError], so the
      presence checks of the source are visible in the model;
    - every call the observer makes to a callback, and every write of the
      teardown slot, is recorded in a trace (ghost state, in call order);
      the properties below are stated on that trace. *)

From Stdlib Require Import String Ascii List Bool Arith Lia.
Import ListNotations.
Local Open Scope string_scope.
Local Open Scope list_scope.

Set Implicit Arguments.

(** ** Values thrown by JavaScript code *)

Inductive exn (U : Type) : Type :=
| TypeError
| Thrown (u : U).
Arguments TypeError {U}.
Arguments Thrown {U} u.

(** ** State and exceptions *)

Section Effects.
Variables X S : Type.

Inductive completion (A : Type) : Type :=
| Normal (a : A) (s : S)
| Throw (x : X) (s : S).
Arguments Normal {A} a s.
Arguments Throw {A} x s.

Definition M (A : Type) : Type := S -> completion A.

Definition ret {A} (a : A) : M A := fun s => Normal a s.

Definition bind {A B} (m : M A) (k : A -> M B) : M B :=
  fun s => match m s with
           | Normal a s' => k a s'
           | Throw x s' => Throw x s'
           end.

Definition final {A} (c : completion A) : S :=
  match c with Normal _ s => s | Throw _ s => s end.

Definition normal {A} (c : completion A) : Prop :=
  match c with Normal _ _ => True | Throw _ _ => False end.
End Effects.

Arguments Normal {X S A} a s.
Arguments Throw {X S A} x s.
Arguments ret {X S A} a _.
Arguments bind {X S A B} m k _.
Arguments final {X S A} c.
Arguments normal {X S A} c.

Declare Scope js_scope.
Delimit Scope js_scope with js.
Notation "x <- m ;; k" := (bind m (fun x => k))
  (at level 61, m at next level, right associativity) : js_scope.
Notation "m ;; k" := (bind m (fun _ => k))
  (at level 61, right associativity) : js_scope.
Local Open Scope js_scope.

(** [values.forEach(f)] *)
Fixpoint forEach {X S A} (values : list A) (f : A -> M X S unit) : M X S unit :=
  match values with
  | [] => ret tt
  | value :: rest => f value ;; forEach rest f
  end.


(** ** Callbacks *)

Section Callbacks.
Variables U World : Type.

(** A zero-argument procedure of the caller: the world it leaves, and the
    value it threw if it did not return. *)
Definition callback : Type := World -> World * option (exn U).

Definition returns (c : callback) : Prop := forall w, snd (c w) = None.

(** JavaScript truthiness of an optional function. *)
Definition truthy {A} (f : option A) : bool :=
  match f with Some _ => true | None => false end.

(** [f(a)] for an optional [f]. *)
Definition applied {A} (f : option (A -> callback)) (a : A) : option callback :=
  match f with Some g => Some (g a) | None => None end.
End Callbacks.

Arguments truthy {A} f.
Arguments applied {U World A} f a.

(** ** interface ObserverHandlers<T> *)

Module ObserverHandlers.
Record t (T U World : Type) : Type := {
  next : option (T -> callback U World);
  error : option (U -> callback U World);
  complete : option (callback U World)
}.
Arguments next {T U World} _.
Arguments error {T U World} _.
Arguments complete {T U World} _.

(** [{}] *)
Definition empty {T U World} : t T U World :=
  {| next := None; error := None; complete := None |}.

Definition well_behaved {T U World} (h : t T U World) : Prop :=
  (forall f v, next h = Some f -> returns (f v)) /\
  (forall f e, error h = Some f -> returns (f e)) /\
  (forall f, complete h = Some f -> returns f).
End ObserverHandlers.

(** ** The trace *)

Inductive event (T U : Type) : Type :=
| CallNext (v : T)       (* handlers.next(v) was called *)
| CallError (e : U)      (* handlers.error(e) was called *)
| CallComplete           (* handlers.complete() was called *)
| CallTeardown           (* this._unsubscribe() was called *)
| SetTeardown.           (* this._unsubscribe = unsub *)
Arguments CallNext {T U} v.
Arguments CallError {T U} e.
Arguments CallComplete {T U}.
Arguments CallTeardown {T U}.
Arguments SetTeardown {T U}.

Definition is_teardown {T U} (ev : event T U) : bool :=
  match ev with CallTeardown => true | _ => false end.

Definition is_install {T U} (ev : event T U) : bool :=
  match ev with SetTeardown => true | _ => false end.


Definition is_handler {T U} (ev : event T U) : bool :=
  match ev with CallNext _ | CallError _ | CallComplete => true | _ => false end.

Definition count {A} (p : A -> bool) (l : list A) : nat := List.length (filter p l).

(** ** class Observer<T> *)

Module Observer.
Section Class.
Variables T U World : Type.

Record t : Type := {
  handlers : ObserverHandlers.t T U World;
  isUnsubscribed : bool;
  _unsubscribe : option (callback U World)
}.

(** [new Observer<T>(handlers)] *)
Definition new (handlers : ObserverHandlers.t T U World) : t :=
  {| handlers := handlers; isUnsubscribed := false; _unsubscribe := None |}.

(** The observer of the run, the world outside it and the trace. *)
Record config : Type := {
  this : t;
  world : World;
  trace : list (event T U)
}.

Definition js : Type -> Type := M (exn U) config.

Definition get_this : js t := fun s => Normal (this s) s.

Definition set_this (o : t) : js unit :=
  fun s => Normal tt {| this := o; world := world s; trace := trace s |}.

Definition record (ev : event T U) : js unit :=
  fun s => Normal tt {| this := this s; world := world s; trace := trace s ++ [ev] |}.

(** [f()] where [f] may be [undefined]; [ev] is what the trace keeps of
    the call. *)
Definition invoke (ev : event T U) (f : option (callback U World)) : js unit :=
  fun s =>
    match f with
    | None => Throw TypeError s
    | Some c =>
        let s' := {| this := this s;
                     world := fst (c (world s));
                     trace := trace s ++ [ev] |} in
        match snd (c (world s)) with
        | None => Normal tt s'
        | Some x => Throw x s'
        end
    end.

Definition next (value : T) : js unit :=
  o <- get_this ;;
  if negb (isUnsubscribed o) && truthy (ObserverHandlers.next (handlers o))
  then invoke (CallNext value) (applied (ObserverHandlers.next (handlers o)) value)
  else ret tt.

Definition unsubscribe : js unit :=
  o <- get_this ;;
  set_this {| handlers := handlers o;
              isUnsubscribed := true;
              _unsubscribe := _unsubscribe o |} ;;
  o <- get_this ;;
  if truthy (_unsubscribe o)
  then invoke CallTeardown (_unsubscribe o)
  else ret tt.

Definition error (err : U) : js unit :=
  o <- get_this ;;
  if negb (isUnsubscribed o)
  then (if truthy (ObserverHandlers.error (handlers o))
        then invoke (CallError err) (applied (ObserverHandlers.error (handlers o)) err)
        else ret tt) ;;
       unsubscribe
  else ret tt.

Definition complete : js unit :=
  o <- get_this ;;
  if negb (isUnsubscribed o)
  then (if truthy (ObserverHandlers.complete (handlers o))
        then invoke CallComplete (ObserverHandlers.complete (handlers o))
        else ret tt) ;;
       unsubscribe
  else ret tt.

Definition setUnsubscribe (unsub : callback U World) : js unit :=
  o <- get_this ;;
  set_this {| handlers := handlers o;
              isUnsubscribed := isUnsubscribed o;
              _unsubscribe := Some unsub |} ;;
  record SetTeardown.
End Class.

Arguments handlers {T U World} _.
Arguments isUnsubscribed {T U World} _.
Arguments _unsubscribe {T U World} _.
Arguments this {T U World} _.
Arguments world {T U World} _.
Arguments trace {T U World} _.
Arguments get_this {T U World} _.
Arguments set_this {T U World} o _.
Arguments record {T U World} ev _.
Arguments invoke {T U World} ev f _.
Arguments next {T U World} value _.
Arguments unsubscribe {T U World} _.
Arguments error {T U World} err _.
Arguments complete {T U World} _.
Arguments setUnsubscribe {T U World} unsub _.
End Observer.

(** ** interface Subscription *)

Module Subscription.
Record t (T U World : Type) : Type := {
  unsubscribe : Observer.js T U World unit
}.
Arguments unsubscribe {T U World} _ _.
End Subscription.

(** ** class Observable<T> *)

Module Observable.
Section Class.
Variables T U World : Type.

(** [console.log], a procedure of the environment that returns. *)
Variable console_log : string -> World -> World.

(** The subscribe function runs against the observer it is given and
    returns the teardown action. *)
Record t : Type := {
  _subscribeFn : Observer.js T U World (callback U World)
}.

Definition from (values : list T) : t :=
  {| _subscribeFn :=
       forEach values (fun value => Observer.next value) ;;
       Observer.complete ;;
       ret (fun w => (console_log "unsubscribed" w, None)) |}.

Definition subscribe (self : t) (handlers : ObserverHandlers.t T U World)
  : World -> completion (exn U) (Observer.config T U World) (Subscription.t T U World) :=
  fun w =>
    (unsub <- _subscribeFn self ;;
     Observer.setUnsubscribe unsub ;;
     ret {| Subscription.unsubscribe := Observer.unsubscribe |})
    {| Observer.this := Observer.new handlers;
       Observer.world := w;
       Observer.trace := [] |}.
End Class.

Arguments _subscribeFn {T U World} _ _.
Arguments from {T U World} console_log values.
Arguments subscribe {T U World} self handlers _.
End Observable.

(** ** Subscribe functions and consumers of the model *)

(** One call on the observer's signal interface. *)
Inductive call (T U : Type) : Type :=
| Next (value : T)       (* observer.next(value) *)
| Error (err : U)        (* observer.error(err) *)
| Complete               (* observer.complete() *)
| Unsubscribe.           (* observer.unsubscribe() *)
Arguments Next {T U} value.
Arguments Error {T U} err.
Arguments Complete {T U}.
Arguments Unsubscribe {T U}.

Definition perform {T U World} (c : call T U) : Observer.js T U World unit :=
  match c with
  | Next value => Observer.next value
  | Error err => Observer.error err
  | Complete => Observer.complete
  | Unsubscribe => Observer.unsubscribe
  end.

(** The subscribe function
    [(observer) => { c1; ...; cn; return teardown; }]
    where each [ci] is a call on [observer]: straight-line code that only
    sends signals, without [try]/[catch] and without a call of
    [setUnsubscribe]. Other subscribe functions are values of
    [Observable.t] all the same. *)
Definition scripted {T U World} (calls : list (call T U)) (teardown : callback U World)
  : Observable.t T U World :=
  {| Observable._subscribeFn := forEach calls perform ;; ret teardown |}.

(** The state in which [subscribe] starts the subscribe function. *)
Definition fresh {T U World} (handlers : ObserverHandlers.t T U World) (w : World)
  : Observer.config T U World :=
  {| Observer.this := Observer.new handlers;
     Observer.world := w;
     Observer.trace := [] |}.


(** The observer with its flag set, as the first statement of
    [unsubscribe] leaves it. *)
Definition closed {T U World} (s : Observer.config T U World) : Observer.config T U World :=
  {| Observer.this :=
       {| Observer.handlers := Observer.handlers (Observer.this s);
          Observer.isUnsubscribed := true;
          Observer._unsubscribe := Observer._unsubscribe (Observer.this s) |};
     Observer.world := Observer.world s;
     Observer.trace := Observer.trace s |}.

(** ** A concrete environment: the console as the world *)

Module Demo.
Definition World : Type := list string.

Definition console_log (line : string) (w : World) : World := (w ++ [line])%list.

(** The decimal digit [v] as a line of output. *)
Definition digit (v : nat) : string := String (ascii_of_nat (48 + v)) EmptyString.

(** Handlers that print what they receive and return. *)
Definition printing : ObserverHandlers.t nat string World :=
  {| ObserverHandlers.next := Some (fun v w => (console_log (digit v) w, None));
     ObserverHandlers.error := Some (fun e w => (console_log e w, None));
     ObserverHandlers.complete := Some (fun w => (console_log "complete" w, None)) |}.

(** A next handler that throws what it is given to report. *)
Definition throwing : ObserverHandlers.t nat string World :=
  {| ObserverHandlers.next := Some (fun _ w => (w, Some (Thrown "fault")));
     ObserverHandlers.error := None;
     ObserverHandlers.complete := None |}.

Definition teardown : callback string World :=
  fun w => (console_log "released" w, None).

(** Scenario C of the specification. *)
Definition scenarioC : Observable.t nat string World :=
  scripted [Next 1; Error "boom"; Next 2] teardown.
End Demo.

(** ** Predicates on runs *)

(** [triple P m Q R]: from a state in [P], [m] ends in [Q] when it returns
    and in [R] when it throws. *)
Definition triple {X S A} (P : S -> Prop) (m : M X S A)
    (Q : A -> S -> Prop) (R : X -> S -> Prop) : Prop :=
  forall s, P s ->
    match m s with
    | Normal a s' => Q a s'
    | Throw x s' => R x s'
    end.

(** The state after [observer.setUnsubscribe(unsub)]. *)
Definition installed {T U World} (unsub : callback U World)
    (s : Observer.config T U World) : Observer.config T U World :=
  {| Observer.this :=
       {| Observer.handlers := Observer.handlers (Observer.this s);
          Observer.isUnsubscribed := Observer.isUnsubscribed (Observer.this s);
          Observer._unsubscribe := Some unsub |};
     Observer.world := Observer.world s;
     Observer.trace := Observer.trace s ++ [SetTeardown] |}.

(** Until the teardown is installed: the slot is unset, and the trace has
    neither a teardown call nor an installation. *)
Definition unset {T U World} (s : Observer.config T U World) : Prop :=
  Observer._unsubscribe (Observer.this s) = None /\
  count is_teardown (Observer.trace s) = 0 /\
  count is_install (Observer.trace s) = 0.



(** The production of a run with handlers [h]: the observer carries [h] and
    no teardown is installed yet. *)
Definition producing {T U World} (h : ObserverHandlers.t T U World)
    (s : Observer.config T U World) : Prop :=
  Observer.handlers (Observer.this s) = h /\
  Observer._unsubscribe (Observer.this s) = None.

(** The trace of a run that installs the teardown action first and once. *)
Definition installed_first {T U} (tr : list (event T U)) : bool :=
  match tr with
  | SetTeardown :: rest => Nat.eqb (count is_install rest) 0
  | _ => false
  end.

(** ** Concrete states used to exercise the statements *)

Module Sample.
(** An open observer with printing handlers, before any teardown is
    installed. *)
Definition opened : Observer.config nat string Demo.World :=
  fresh Demo.printing [].

(** The same observer after [error("boom")]. *)
Definition errored : Observer.config nat string Demo.World :=
  final (Observer.error "boom" opened).

(** An open observer without handlers. *)
Definition silent : Observer.config nat string Demo.World :=
  fresh ObserverHandlers.empty [].

(** An open observer without handlers on which a teardown is installed. *)
Definition wired : Observer.config nat string Demo.World :=
  installed Demo.teardown silent.
End Sample.

(** ** The whole interface of [Observer], and what a run delivers *)

(** One call of a public method of [Observer]: a signal, or
    [setUnsubscribe(unsub)]. *)
Inductive method (T U World : Type) : Type :=
| Signal (c : call T U)
| SetUnsubscribe (unsub : callback U World).
Arguments Signal {T U World} c.
Arguments SetUnsubscribe {T U World} unsub.

Definition dispatch {T U World} (m : method T U World) : Observer.js T U World unit :=
  match m with
  | Signal c => perform c
  | SetUnsubscribe unsub => Observer.setUnsubscribe unsub
  end.

(** The signals of a call sequence that reach an open observer: the calls
    up to and including the first one that closes it. *)
Fixpoint signals {T U} (calls : list (call T U)) : list (event T U) :=
  match calls with
  | [] => []
  | Next value :: rest => CallNext value :: signals rest
  | Error err :: _ => [CallError err]
  | Complete :: _ => [CallComplete]
  | Unsubscribe :: _ => []
  end.

Definition closing {T U} (c : call T U) : bool :=
  match c with Next _ => false | _ => true end.

(** The handler calls for which [h] has a handler. *)
Definition heard {T U World} (h : ObserverHandlers.t T U World) (ev : event T U) : bool :=
  match ev with
  | CallNext _ => truthy (ObserverHandlers.next h)
  | CallError _ => truthy (ObserverHandlers.error h)
  | CallComplete => truthy (ObserverHandlers.complete h)
  | _ => false
  end.

Definition is_error_call {T U} (ev : event T U) : bool :=
  match ev with CallError _ => true | _ => false end.

(** ** The usage script at the end of the source *)

Module Usage.
Section Script.
(** [type Request = PostRequest | GetRequest]: the script passes requests
    around and prints them, it reads none of their fields. *)
Variable Request : Type.
(** [unknown] *)
Variable U : Type.

(** An argument of [console.log] or [console.error]. *)
Inductive shown : Type :=
| Text (s : string)
| Object (request : Request)
| Value (u : U).

Inductive output : Type :=
| Log (args : list shown)       (* console.log(...args) *)
| Err (args : list shown).      (* console.error(...args) *)

(** The console, oldest output first. *)
Definition World : Type := list output.

Definition console_log (line : string) (w : World) : World := w ++ [Log [Text line]].

Record Response : Type := { status : nat }.

Definition HTTP_STATUS_OK : nat := 200.
Definition HTTP_STATUS_INTERNAL_SERVER_ERROR : nat := 500.

Definition handleRequest (request : Request) (w : World) : World * Response :=
  (w ++ [Log [Text "Request handled:"; Object request]],
   {| status := HTTP_STATUS_OK |}).

Definition handleError (error : U) (w : World) : World * Response :=
  (w ++ [Err [Text "Error occurred:"; Value error]],
   {| status := HTTP_STATUS_INTERNAL_SERVER_ERROR |}).

Definition handleComplete (w : World) : World := w ++ [Log [Text "complete"]].

(** A handler's return value is dropped by the observer. *)
Definition returned {A} (r : World * A) : World * option (exn U) := (fst r, None).

(** [{ next: handleRequest, error: handleError, complete: handleComplete }] *)
Definition handlers : ObserverHandlers.t Request U World :=
  {| ObserverHandlers.next := Some (fun request w => returned (handleRequest request w));
     ObserverHandlers.error := Some (fun error w => returned (handleError error w));
     ObserverHandlers.complete := Some (fun w => (handleComplete w, None)) |}.

Variable requestsMock : list Request.

(** [const requests$ = Observable.from<Request>(requestsMock);] *)
Definition requests : Observable.t Request U World :=
  Observable.from console_log requestsMock.

(** [const subscription = requests$.subscribe({...});
     subscription.unsubscribe();] *)
Definition main (w : World) : completion (exn U) (Observer.config Request U World) unit :=
  match Observable.subscribe requests handlers w with
  | Normal subscription s => Subscription.unsubscribe subscription s
  | Throw x s => Throw x s
  end.
End Script.

Arguments Text {Request U} s.
Arguments Object {Request U} request.
Arguments Value {Request U} u.
Arguments Log {Request U} args.
Arguments Err {Request U} args.
End Usage.

(** A next handler that prints digits and throws on [2]. *)
Definition picky : ObserverHandlers.t nat string Demo.World :=
  {| ObserverHandlers.next :=
       Some (fun v w => if Nat.eqb v 2
                        then (w, Some (Thrown "fault"))
                        else (Demo.console_log (Demo.digit v) w, None));
     ObserverHandlers.error := None;
     ObserverHandlers.complete := Some (fun w => (Demo.console_log "complete" w, None)) |}.

(** Only a complete handler. *)
Definition completing : ObserverHandlers.t nat string Demo.World :=
  {| ObserverHandlers.next := None;
     ObserverHandlers.error := None;
     ObserverHandlers.complete := Some (fun w => (Demo.console_log "complete" w, None)) |}.



(** A subscribe function that installs a teardown action by itself before
    it sends anything:
    [(observer) => { observer.setUnsubscribe(teardown); observer.next(1);
                     observer.complete(); return teardown; }] *)
Definition installing : Observable.t nat string Demo.World :=
  {| Observable._subscribeFn :=
       Observer.setUnsubscribe Demo.teardown ;;
       Observer.next 1 ;;
       Observer.complete ;;
       ret Demo.teardown |}.

(** * Properties *)

(** ** Reasoning about runs *)

Lemma triple_ret {X S A} (P : S -> Prop) (a : A) (R : X -> S -> Prop) :
  triple P (ret a) (fun _ s => P s) R.
Proof. intros s H. exact H. Qed.

Lemma triple_bind {X S A B} (P : S -> Prop) (m : M X S A) (k : A -> M X S B)
    (Q : A -> S -> Prop) (Q' : B -> S -> Prop) (R : X -> S -> Prop) :
  triple P m Q R ->
  (forall a, triple (Q a) (k a) Q' R) ->
  triple P (a <- m ;; k a) Q' R.
Proof.
  intros Hm Hk s Hs. unfold bind. specialize (Hm s Hs).
  destruct (m s) as [a s'|x s'].
  - exact (Hk a s' Hm).
  - exact Hm.
Qed.

Lemma triple_forEach {X S A} (I : S -> Prop) (R : X -> S -> Prop)
    (f : A -> M X S unit) (values : list A) :
  (forall a, triple I (f a) (fun _ => I) R) ->
  triple I (forEach values f) (fun _ => I) R.
Proof.
  intros Hf. induction values as [|a rest IH]; simpl.
  - apply triple_ret.
  - eapply triple_bind; [apply Hf | intros []; exact IH].
Qed.


Lemma forEach_app {X S A} (l1 l2 : list A) (f : A -> M X S unit) (s : S) :
  forEach (l1 ++ l2) f s = (forEach l1 f ;; forEach l2 f) s.
Proof.
  revert s. induction l1 as [|a l1 IH]; intros s; simpl.
  - reflexivity.
  - unfold bind. destruct (f a s) as [[] s'|x s']; [|reflexivity].
    rewrite IH. reflexivity.
Qed.

Lemma forEach_map {X S A B} (g : A -> B) (l : list A) (f : B -> M X S unit) (s : S) :
  forEach (map g l) f s = forEach l (fun a => f (g a)) s.
Proof.
  revert s. induction l as [|a l IH]; intros s; simpl.
  - reflexivity.
  - unfold bind. destruct (f (g a) s) as [[] s'|x s']; [apply IH | reflexivity].
Qed.

Lemma count_app {A} (p : A -> bool) (l1 l2 : list A) :
  count p (l1 ++ l2) = count p l1 + count p l2.
Proof. unfold count. rewrite filter_app, length_app. reflexivity. Qed.


(** ** The methods of [Observer], case by case *)

Section Methods.
Variables T U World : Type.
Implicit Types (s : Observer.config T U World) (td : callback U World).

Local Abbreviation isClosed s := (Observer.isUnsubscribed (Observer.this s)).
Local Abbreviation slot s := (Observer._unsubscribe (Observer.this s)).
Local Abbreviation handlersOf s := (Observer.handlers (Observer.this s)).

Lemma next_closed s (v : T) :
  isClosed s = true -> Observer.next v s = Normal tt s.
Proof.
  intros H. unfold Observer.next, bind, Observer.get_this. rewrite H. reflexivity.
Qed.

Lemma next_absent s (v : T) :
  ObserverHandlers.next (handlersOf s) = None -> Observer.next v s = Normal tt s.
Proof.
  intros H. unfold Observer.next, bind, Observer.get_this. rewrite H.
  rewrite andb_false_r. reflexivity.
Qed.

Lemma next_open s (v : T) f :
  isClosed s = false ->
  ObserverHandlers.next (handlersOf s) = Some f ->
  Observer.next v s = Observer.invoke (CallNext v) (Some (f v)) s.
Proof.
  intros Ho Hf. unfold Observer.next, bind, Observer.get_this.
  rewrite Ho, Hf. reflexivity.
Qed.

Lemma unsubscribe_unset s :
  slot s = None -> Observer.unsubscribe s = Normal tt (closed s).
Proof.
  intros H. unfold Observer.unsubscribe, bind, Observer.get_this, Observer.set_this.
  simpl. unfold closed. rewrite H. reflexivity.
Qed.

Lemma unsubscribe_set s td :
  slot s = Some td ->
  Observer.unsubscribe s = Observer.invoke CallTeardown (Some td) (closed s).
Proof.
  intros H. unfold Observer.unsubscribe, bind, Observer.get_this, Observer.set_this.
  simpl. unfold closed. rewrite H. reflexivity.
Qed.

Lemma complete_closed s :
  isClosed s = true -> Observer.complete s = Normal tt s.
Proof.
  intros H. unfold Observer.complete, bind, Observer.get_this. rewrite H. reflexivity.
Qed.

Lemma error_closed s (err : U) :
  isClosed s = true -> Observer.error err s = Normal tt s.
Proof.
  intros H. unfold Observer.error, bind, Observer.get_this. rewrite H. reflexivity.
Qed.

Lemma complete_open_absent s :
  isClosed s = false ->
  ObserverHandlers.complete (handlersOf s) = None ->
  Observer.complete s = Observer.unsubscribe s.
Proof.
  intros Ho Hh. unfold Observer.complete at 1. unfold bind at 1 2, Observer.get_this at 1.
  rewrite Ho, Hh. reflexivity.
Qed.

Lemma complete_open_present s f :
  isClosed s = false ->
  ObserverHandlers.complete (handlersOf s) = Some f ->
  Observer.complete s = (Observer.invoke CallComplete (Some f) ;; Observer.unsubscribe) s.
Proof.
  intros Ho Hh. unfold Observer.complete at 1. unfold bind at 1, Observer.get_this at 1.
  rewrite Ho, Hh. reflexivity.
Qed.

Lemma error_open_absent s (err : U) :
  isClosed s = false ->
  ObserverHandlers.error (handlersOf s) = None ->
  Observer.error err s = Observer.unsubscribe s.
Proof.
  intros Ho Hh. unfold Observer.error at 1. unfold bind at 1 2, Observer.get_this at 1.
  rewrite Ho, Hh. reflexivity.
Qed.

Lemma error_open_present s (err : U) f :
  isClosed s = false ->
  ObserverHandlers.error (handlersOf s) = Some f ->
  Observer.error err s =
    (Observer.invoke (CallError err) (Some (f err)) ;; Observer.unsubscribe) s.
Proof.
  intros Ho Hh. unfold Observer.error at 1. unfold bind at 1, Observer.get_this at 1.
  rewrite Ho, Hh. reflexivity.
Qed.

(** A callback that returns: the call is recorded and its effect kept. *)
Lemma invoke_returns s ev (c : callback U World) :
  returns c ->
  Observer.invoke ev (Some c) s =
    Normal tt {| Observer.this := Observer.this s;
                 Observer.world := fst (c (Observer.world s));
                 Observer.trace := Observer.trace s ++ [ev] |}.
Proof.
  intros H. unfold Observer.invoke. rewrite (H (Observer.world s)). reflexivity.
Qed.

(** Calling an absent function is the [TypeError] the presence checks
    of the source keep away. *)
Lemma invoke_undefined s ev : Observer.invoke ev None s = Throw TypeError s.
Proof. reflexivity. Qed.
End Methods.

(** ** What one call leaves behind *)

Section Steps.
Variables T U World : Type.
Implicit Types (s : Observer.config T U World) (td : callback U World).

Local Abbreviation isClosed s := (Observer.isUnsubscribed (Observer.this s)).
Local Abbreviation slot s := (Observer._unsubscribe (Observer.this s)).
Local Abbreviation handlersOf s := (Observer.handlers (Observer.this s)).

Lemma unsubscribe_closes s :
  isClosed (final (Observer.unsubscribe s)) = true.
Proof.
  destruct (slot s) as [td|] eqn:Hslot.
  - rewrite (unsubscribe_set _ Hslot). unfold Observer.invoke.
    destruct (snd (td (Observer.world (closed s)))); reflexivity.
  - rewrite (unsubscribe_unset _ Hslot). reflexivity.
Qed.

Lemma unsubscribe_returned_closed s s' :
  Observer.unsubscribe s = Normal tt s' -> isClosed s' = true.
Proof.
  intros H. pose proof (unsubscribe_closes s) as Hc. rewrite H in Hc. exact Hc.
Qed.

Lemma then_unsubscribe_closed (m : Observer.js T U World unit) s s' :
  (m ;; Observer.unsubscribe) s = Normal tt s' -> isClosed s' = true.
Proof.
  unfold bind. destruct (m s) as [[] s1|x s1]; [|discriminate].
  apply unsubscribe_returned_closed.
Qed.

Lemma complete_returned_closed s s' :
  Observer.complete s = Normal tt s' -> isClosed s' = true.
Proof.
  destruct (isClosed s) eqn:Hc.
  - rewrite (complete_closed _ Hc). intros H. inversion H. subst s'. exact Hc.
  - destruct (ObserverHandlers.complete (handlersOf s)) as [f|] eqn:Hh.
    + rewrite (complete_open_present _ Hc Hh). apply then_unsubscribe_closed.
    + rewrite (complete_open_absent _ Hc Hh). apply unsubscribe_returned_closed.
Qed.


(** An exception out of [complete] or [error] on an observer without an
    installed teardown is the handler's. *)
Lemma complete_throw_unset s x s' :
  slot s = None ->
  Observer.complete s = Throw x s' ->
  exists f, ObserverHandlers.complete (handlersOf s) = Some f /\
            snd (f (Observer.world s)) = Some x.
Proof.
  intros Hslot. destruct (isClosed s) eqn:Hc.
  - rewrite (complete_closed _ Hc). discriminate.
  - destruct (ObserverHandlers.complete (handlersOf s)) as [f|] eqn:Hh.
    + rewrite (complete_open_present _ Hc Hh). unfold bind, Observer.invoke.
      destruct (snd (f (Observer.world s))) as [y|] eqn:Hf.
      * intros H. inversion H. subst. exists f. split; [reflexivity | exact Hf].
      * rewrite unsubscribe_unset by exact Hslot. discriminate.
    + rewrite (complete_open_absent _ Hc Hh), (unsubscribe_unset _ Hslot). discriminate.
Qed.

Lemma error_throw_unset s (err : U) x s' :
  slot s = None ->
  Observer.error err s = Throw x s' ->
  exists f, ObserverHandlers.error (handlersOf s) = Some f /\
            snd (f err (Observer.world s)) = Some x.
Proof.
  intros Hslot. destruct (isClosed s) eqn:Hc.
  - rewrite (error_closed _ _ Hc). discriminate.
  - destruct (ObserverHandlers.error (handlersOf s)) as [f|] eqn:Hh.
    + rewrite (error_open_present _ _ Hc Hh). unfold bind, Observer.invoke.
      destruct (snd (f err (Observer.world s))) as [y|] eqn:Hf.
      * intros H. inversion H. subst. exists f. split; [reflexivity | exact Hf].
      * rewrite unsubscribe_unset by exact Hslot. discriminate.
    + rewrite (error_open_absent _ _ Hc Hh), (unsubscribe_unset _ Hslot). discriminate.
Qed.
End Steps.

(** Evaluation of one call on a state given by its fields. *)
Ltac run_call :=
  unfold perform, Observer.next, Observer.error, Observer.complete,
    Observer.unsubscribe, Observer.setUnsubscribe, Observer.invoke,
    Observer.record, Observer.get_this, Observer.set_this, bind, ret,
    truthy, applied;
  simpl.

Ltac split_cases :=
  repeat match goal with
    | |- context [match ?x with _ => _ end] =>
        lazymatch x with
        | context [match _ with _ => _ end] => fail
        | _ => destruct x eqn:?; simpl
        end
    end.

(** ** What a subscription run leaves behind *)

Ltac unset_trace :=
  unfold unset in *; simpl in *;
  rewrite ?count_app; unfold count in *; simpl in *;
  repeat split; try reflexivity; try assumption; try lia.


Section Runs.
Variables T U World : Type.
Implicit Types (s : Observer.config T U World) (td : callback U World)
               (h : ObserverHandlers.t T U World) (c : call T U).

Local Abbreviation isClosed s := (Observer.isUnsubscribed (Observer.this s)).
Local Abbreviation slot s := (Observer._unsubscribe (Observer.this s)).
Local Abbreviation handlersOf s := (Observer.handlers (Observer.this s)).

Lemma subscribe_eq (o : Observable.t T U World) h (w : World) :
  Observable.subscribe o h w =
    match Observable._subscribeFn o (fresh h w) with
    | Normal unsub s1 =>
        Normal {| Subscription.unsubscribe := Observer.unsubscribe |} (installed unsub s1)
    | Throw x s1 => Throw x s1
    end.
Proof.
  unfold Observable.subscribe, bind, fresh.
  destruct (Observable._subscribeFn o _); reflexivity.
Qed.

Lemma scripted_eq (calls : list (call T U)) td s :
  Observable._subscribeFn (scripted calls td) s =
    match forEach calls perform s with
    | Normal _ s1 => Normal td s1
    | Throw x s1 => Throw x s1
    end.
Proof.
  unfold scripted, Observable._subscribeFn, bind.
  destruct (forEach calls perform s); reflexivity.
Qed.

(** *** No teardown call and no installation during the production *)

Lemma perform_unset c :
  triple (@unset T U World) (perform c) (fun _ => unset) (fun _ => unset).
Proof.
  intros [[[hn he hc] b u] w tr] (Hs & Ht & Hi). simpl in Hs. subst u.
  destruct c as [v|err| |]; run_call; split_cases; unset_trace.
Qed.

Lemma forEach_unset (calls : list (call T U)) :
  triple (@unset T U World) (forEach calls perform) (fun _ => unset) (fun _ => unset).
Proof. apply triple_forEach. apply perform_unset. Qed.

(** *** At most one terminal handler call *)




(** *** Handlers that return never make the production throw *)

Lemma perform_producing h c :
  ObserverHandlers.well_behaved h ->
  triple (producing h) (perform c) (fun _ => producing h) (fun _ _ => False).
Proof.
  intros (Hn & He & Hc) [[h' b u] w tr] [Hh Hs]. simpl in Hh, Hs. subst h' u.
  destruct h as [hn he hc]; simpl in Hn, He, Hc.
  destruct c as [v|err| |]; destruct b, hn as [fn|], he as [fe|], hc as [fc|];
    run_call;
    rewrite ?(Hn _ v eq_refl w), ?(He _ err eq_refl w), ?(Hc _ eq_refl w);
    simpl; split; reflexivity.
Qed.

Lemma forEach_producing h (calls : list (call T U)) :
  ObserverHandlers.well_behaved h ->
  triple (producing h) (forEach calls perform) (fun _ => producing h) (fun _ _ => False).
Proof. intros Hh. apply triple_forEach. intros c. apply perform_producing. exact Hh. Qed.

(** *** The start of a run *)

Lemma fresh_unset h (w : World) : unset (fresh h w).
Proof. repeat split. Qed.


Lemma fresh_producing h (w : World) : producing h (fresh h w).
Proof. split; reflexivity. Qed.

Lemma production_returns h (calls : list (call T U)) (w : World) :
  ObserverHandlers.well_behaved h ->
  exists s1, forEach calls perform (fresh h w) = Normal tt s1 /\ producing h s1.
Proof.
  intros Hh.
  pose proof (forEach_producing calls Hh (fresh_producing h w)) as H.
  destruct (forEach calls perform (fresh h w)) as [[] s1|x s1]; [|contradiction].
  exists s1. split; [reflexivity | exact H].
Qed.

(** *** Explicit unsubscription, [n] times *)


(** *** [Observable.from] is a scripted subscribe function *)

Lemma from_scripted (console_log : string -> World -> World) (values : list T) s :
  Observable._subscribeFn (Observable.from console_log values) s =
  Observable._subscribeFn
    (scripted (map Next values ++ [Complete])
              (fun w => (console_log "unsubscribed"%string w, None))) s.
Proof.
  unfold Observable.from, scripted, Observable._subscribeFn.
  unfold bind at 1. unfold bind at 2. rewrite forEach_app. unfold bind at 2.
  rewrite forEach_map.
  change (fun a : T => perform (Next a)) with (fun a : T => @Observer.next T U World a).
  destruct (forEach values _ s) as [[] s1|x s1]; [|reflexivity].
  simpl. unfold bind. destruct (Observer.complete s1) as [[] s2|x s2]; reflexivity.
Qed.
End Runs.

(** ** Whole subscriptions *)

Section Subscriptions.
Variables T U World : Type.
Implicit Types (s : Observer.config T U World) (td : callback U World)
               (h : ObserverHandlers.t T U World).

Lemma subscribe_scripted_returns h (calls : list (call T U)) td (w : World) :
  ObserverHandlers.well_behaved h ->
  exists s1,
    forEach calls perform (fresh h w) = Normal tt s1 /\
    producing h s1 /\
    unset s1 /\
    Observable.subscribe (scripted calls td) h w =
      Normal {| Subscription.unsubscribe := Observer.unsubscribe |} (installed td s1).
Proof.
  intros Hh. destruct (production_returns calls w Hh) as (s1 & Hrun & Hp).
  exists s1. split; [exact Hrun|]. split; [exact Hp|]. split.
  - pose proof (forEach_unset calls (fresh_unset h w)) as Hu.
    rewrite Hrun in Hu. exact Hu.
  - rewrite subscribe_eq, scripted_eq, Hrun. reflexivity.
Qed.

Lemma subscribe_from (console_log : string -> World -> World) (values : list T) h (w : World) :
  Observable.subscribe (Observable.from console_log values) h w =
  Observable.subscribe
    (scripted (map Next values ++ [Complete])
              (fun w => (console_log "unsubscribed" w, None))) h w.
Proof. rewrite !subscribe_eq, from_scripted. reflexivity. Qed.

(** [values.forEach((value) => observer.next(value))] on an open observer
    whose next handler returns. *)
Lemma forEach_next_open (f : T -> callback U World) (values : list T) : forall s,
  Observer.isUnsubscribed (Observer.this s) = false ->
  ObserverHandlers.next (Observer.handlers (Observer.this s)) = Some f ->
  (forall v, returns (f v)) ->
  forEach values (fun value => Observer.next value) s =
    Normal tt {| Observer.this := Observer.this s;
                 Observer.world := fold_left (fun w v => fst (f v w)) values (Observer.world s);
                 Observer.trace := Observer.trace s ++ map CallNext values |}.
Proof.
  induction values as [|v rest IH]; intros s Hopen Hf Hret.
  - destruct s. simpl. rewrite app_nil_r. reflexivity.
  - cbn [forEach]. unfold bind.
    rewrite (next_open _ _ Hopen Hf), (invoke_returns _ _ (Hret v)).
    rewrite IH by assumption. cbn [Observer.this Observer.world Observer.trace fold_left map].
    rewrite <- app_assoc. reflexivity.
Qed.
End Subscriptions.

Lemma printing_well_behaved : ObserverHandlers.well_behaved Demo.printing.
Proof.
  unfold ObserverHandlers.well_behaved, returns. simpl.
  repeat split; intros;
    match goal with H : Some _ = Some _ |- _ => inversion H; subst end;
    reflexivity.
Defined.


Lemma teardown_returns : returns Demo.teardown.
Proof. intros w. reflexivity. Defined.

(** A handler that throws ends the run where it throws: the exception leaves
    [subscribe], the remaining values are not delivered and the observer
    stays open. The statements below that promise a result therefore ask
    for callbacks that return. *)
Example throwing_handler_aborts :
  exists s,
    Observable.subscribe (Observable.from Demo.console_log [1; 2; 3]) Demo.throwing [] =
      Throw (Thrown "fault") s /\
    Observer.trace s = [CallNext 1] /\
    Observer.isUnsubscribed (Observer.this s) = false.
Proof. eexists. repeat split. Qed.

(** * The lifecycle properties *)

(** ** Signals after a terminal signal *)







(** ** Errors without an error handler *)

(** C7. [error(err)] on an open observer without an error handler is
    [unsubscribe()]: no handler is called, [err] plays no part in the
    result, the observer ends closed, and nothing is thrown or printed by
    the observer itself (with no teardown installed the world and the trace
    are untouched; with one installed that returns, only its call is
    added). *)
Theorem error_without_handler_is_dropped :
  forall (T U World : Type) (s : Observer.config T U World) (err : U),
    Observer.isUnsubscribed (Observer.this s) = false ->
    ObserverHandlers.error (Observer.handlers (Observer.this s)) = None ->
    Observer.error err s = Observer.unsubscribe s /\
    Observer.isUnsubscribed (Observer.this (final (Observer.error err s))) = true /\
    count is_handler (Observer.trace (final (Observer.error err s))) =
      count is_handler (Observer.trace s) /\
    (Observer._unsubscribe (Observer.this s) = None ->
     Observer.error err s = Normal tt (closed s)) /\
    (forall td, Observer._unsubscribe (Observer.this s) = Some td -> returns td ->
     Observer.error err s =
       Normal tt {| Observer.this := Observer.this (closed s);
                    Observer.world := fst (td (Observer.world s));
                    Observer.trace := Observer.trace s ++ [CallTeardown] |}).
Proof.
  intros T U World s err Hopen Hnone.
  rewrite (error_open_absent _ _ Hopen Hnone).
  split; [reflexivity|]. split; [apply unsubscribe_closes|]. split; [|split].
  - destruct (Observer._unsubscribe (Observer.this s)) as [td|] eqn:Hslot.
    + rewrite (unsubscribe_set _ Hslot). unfold Observer.invoke.
      destruct (snd (td (Observer.world (closed s)))); simpl;
        rewrite count_app; unfold count at 2; simpl; apply Nat.add_0_r.
    + rewrite (unsubscribe_unset _ Hslot). reflexivity.
  - apply unsubscribe_unset.
  - intros td Hslot Htd.
    rewrite (unsubscribe_set _ Hslot), (invoke_returns _ _ Htd). reflexivity.
Qed.

Lemma error_without_handler_is_dropped_witness :
  Observer.error "boom" Sample.silent = Normal tt (closed Sample.silent) /\
  Observer.error "boom" Sample.wired =
    Normal tt {| Observer.this := Observer.this (closed Sample.wired);
                 Observer.world := ["released"];
                 Observer.trace := [SetTeardown; CallTeardown] |}.
Proof.
  split.
  - apply (error_without_handler_is_dropped Sample.silent "boom");
      reflexivity.
  - apply (proj2 (proj2 (proj2 (proj2
             (error_without_handler_is_dropped Sample.wired "boom"
                eq_refl eq_refl)))) Demo.teardown eq_refl).
    intros w. reflexivity.
Defined.

(** ** Closing before a teardown is installed *)

(** C10. On an observer whose teardown slot is unset, [unsubscribe()]
    returns, having only set the flag; and an exception out of [complete()]
    or [error(err)] can only be one thrown by the handler they call, so with
    handlers that return both return too. The absent teardown is never
    called. *)
Theorem close_before_install_is_safe :
  forall (T U World : Type) (s : Observer.config T U World),
    Observer._unsubscribe (Observer.this s) = None ->
    Observer.unsubscribe s = Normal tt (closed s) /\
    (forall x s', Observer.complete s = Throw x s' ->
       exists f, ObserverHandlers.complete (Observer.handlers (Observer.this s)) = Some f /\
                 snd (f (Observer.world s)) = Some x) /\
    (forall err x s', Observer.error err s = Throw x s' ->
       exists f, ObserverHandlers.error (Observer.handlers (Observer.this s)) = Some f /\
                 snd (f err (Observer.world s)) = Some x) /\
    (ObserverHandlers.well_behaved (Observer.handlers (Observer.this s)) ->
     forall err, normal (Observer.complete s) /\ normal (Observer.error err s)).
Proof.
  intros T U World s Hslot.
  split; [exact (unsubscribe_unset _ Hslot)|].
  split; [intros x s'; apply complete_throw_unset; exact Hslot|].
  split; [intros err x s'; apply error_throw_unset; exact Hslot|].
  intros (_ & He & Hc) err. split.
  - destruct (Observer.complete s) as [a s'|x s'] eqn:Hrun; [exact I|].
    destruct (complete_throw_unset _ Hslot Hrun) as (f & Hf & Hx).
    rewrite (Hc f Hf (Observer.world s)) in Hx. discriminate.
  - destruct (Observer.error err s) as [a s'|x s'] eqn:Hrun; [exact I|].
    destruct (error_throw_unset _ _ Hslot Hrun) as (f & Hf & Hx).
    rewrite (He f err Hf (Observer.world s)) in Hx. discriminate.
Qed.

Lemma close_before_install_is_safe_witness :
  Observer.unsubscribe Sample.opened = Normal tt (closed Sample.opened) /\
  normal (Observer.complete Sample.opened) /\
  normal (Observer.error "boom" Sample.opened).
Proof.
  split.
  - apply (close_before_install_is_safe Sample.opened). reflexivity.
  - apply (proj2 (proj2 (proj2
             (close_before_install_is_safe Sample.opened eq_refl)))).
    exact printing_well_behaved.
Defined.

(** ** Repeated unsubscription *)

(** C6. After [subscribe] has returned, a second [subscription.unsubscribe()]
    leaves the observer as the first left it (closed), and each of the two
    calls runs the installed teardown action once more. *)
Theorem unsubscribe_twice :
  forall (T U World : Type) (calls : list (call T U)) (td : callback U World)
         (h : ObserverHandlers.t T U World) (w : World),
    ObserverHandlers.well_behaved h -> returns td ->
    exists subscription s0 s1 s2,
      Observable.subscribe (scripted calls td) h w = Normal subscription s0 /\
      Subscription.unsubscribe subscription s0 = Normal tt s1 /\
      Subscription.unsubscribe subscription s1 = Normal tt s2 /\
      Observer.isUnsubscribed (Observer.this s1) = true /\
      Observer.this s2 = Observer.this s1 /\
      Observer.trace s1 = Observer.trace s0 ++ [CallTeardown] /\
      Observer.trace s2 = Observer.trace s1 ++ [CallTeardown] /\
      Observer.world s1 = fst (td (Observer.world s0)) /\
      Observer.world s2 = fst (td (Observer.world s1)).
Proof.
  intros T U World calls td h w Hh Htd.
  destruct (subscribe_scripted_returns calls td w Hh) as (p & _ & _ & _ & Hsub).
  rewrite Hsub. do 4 eexists. split; [reflexivity|]. cbn [Subscription.unsubscribe].
  rewrite (@unsubscribe_set _ _ _ (installed td p) td eq_refl), (invoke_returns _ _ Htd).
  split; [reflexivity|].
  match goal with |- Observer.unsubscribe ?s = _ /\ _ =>
    rewrite (@unsubscribe_set _ _ _ s td eq_refl), (invoke_returns _ _ Htd)
  end.
  repeat split.
Qed.

Lemma unsubscribe_twice_witness :
  exists subscription s0 s1 s2,
    Observable.subscribe Demo.scenarioC Demo.printing [] = Normal subscription s0 /\
    Subscription.unsubscribe subscription s0 = Normal tt s1 /\
    Subscription.unsubscribe subscription s1 = Normal tt s2 /\
    Observer.isUnsubscribed (Observer.this s1) = true /\
    Observer.this s2 = Observer.this s1 /\
    Observer.trace s1 = Observer.trace s0 ++ [CallTeardown] /\
    Observer.trace s2 = Observer.trace s1 ++ [CallTeardown] /\
    Observer.world s1 = fst (Demo.teardown (Observer.world s0)) /\
    Observer.world s2 = fst (Demo.teardown (Observer.world s1)).
Proof.
  exact (unsubscribe_twice [Next 1; Error "boom"; Next 2] []
           printing_well_behaved teardown_returns).
Defined.

(** ** When the teardown action runs *)




(** ** When the teardown action is installed *)

(** C5, as the specification states it, fails: subscribing to
    [Observable.from([1])] calls the next and complete handlers before
    [setUnsubscribe] runs. *)
Lemma teardown_installed_after_signals :
  exists subscription s,
    Observable.subscribe (Observable.from Demo.console_log [1]) Demo.printing [] =
      Normal subscription s /\
    Observer.trace s = [CallNext 1; CallComplete; SetTeardown] /\
    installed_first (Observer.trace s) = false.
Proof. eexists. eexists. repeat split. Qed.

Lemma subscribe_installs_last (T U World : Type) (calls : list (call T U))
    (td : callback U World) (h : ObserverHandlers.t T U World) (w : World)
    subscription s :
  Observable.subscribe (scripted calls td) h w = Normal subscription s ->
  exists s1,
    Observable._subscribeFn (scripted calls td) (fresh h w) = Normal td s1 /\
    Observer._unsubscribe (Observer.this s1) = None /\
    count is_install (Observer.trace s1) = 0 /\
    s = installed td s1 /\
    count is_install (Observer.trace s) = 1.
Proof.
  rewrite subscribe_eq, scripted_eq.
  pose proof (forEach_unset calls (fresh_unset h w)) as Hu.
  destruct (forEach calls perform (fresh h w)) as [[] s1|x s1]; [|discriminate].
  intros H. inversion H. subst. exists s1. destruct Hu as (Hs & _ & Hi).
  repeat split; try assumption.
  cbn [installed Observer.trace]. rewrite count_app, Hi. reflexivity.
Qed.

(** A subscribe function may itself call the public [setUnsubscribe]: the
    run below installs twice, and [complete()] calls the action that the
    subscribe function installed. *)
Example installing_subscribe_function :
  exists subscription s,
    Observable.subscribe installing Demo.printing [] = Normal subscription s /\
    Observer.trace s =
      [SetTeardown; CallNext 1; CallComplete; CallTeardown; SetTeardown].
Proof. do 2 eexists. repeat split. Qed.

(** C5, amended. In every [subscribe] run that returns, [subscribe] calls
    [setUnsubscribe] with the action the subscribe function returned, after
    the subscribe function has returned and as its last step before the
    subscription is handed back, so every signal of the production is
    delivered before that installation. When the subscribe function only
    sends signals (a straight-line sequence of [next], [error], [complete]
    and [unsubscribe] calls, none of [setUnsubscribe]) and the callbacks do
    not call the observer, the slot is unset during the whole production and
    that installation is the only one of the run; with handlers that return,
    such a run returns. *)
Theorem teardown_installed_after_production :
  (forall (T U World : Type) (o : Observable.t T U World)
          (h : ObserverHandlers.t T U World) (w : World)
          (subscription : Subscription.t T U World) (s : Observer.config T U World),
      Observable.subscribe o h w = Normal subscription s ->
      exists unsub s1,
        Observable._subscribeFn o (fresh h w) = Normal unsub s1 /\
        s = installed unsub s1 /\
        Observer.trace s = Observer.trace s1 ++ [SetTeardown] /\
        Observer._unsubscribe (Observer.this s) = Some unsub) /\
  (forall (T U World : Type) (calls : list (call T U)) (td : callback U World)
          (h : ObserverHandlers.t T U World) (w : World),
      (ObserverHandlers.well_behaved h ->
       normal (Observable.subscribe (scripted calls td) h w)) /\
      (forall subscription s,
          Observable.subscribe (scripted calls td) h w = Normal subscription s ->
          exists s1,
            Observable._subscribeFn (scripted calls td) (fresh h w) = Normal td s1 /\
            Observer._unsubscribe (Observer.this s1) = None /\
            count is_install (Observer.trace s1) = 0 /\
            s = installed td s1 /\
            count is_install (Observer.trace s) = 1)).
Proof.
  split.
  - intros T U World o h w subscription s Hsub.
    rewrite subscribe_eq in Hsub.
    destruct (Observable._subscribeFn o (fresh h w)) as [unsub s1|x s1];
      [|discriminate].
    inversion Hsub. subst. exists unsub, s1. repeat split.
  - intros T U World calls td h w. split.
    + intros Hh.
      destruct (subscribe_scripted_returns calls td w Hh) as (p & _ & _ & _ & Hsub).
      rewrite Hsub. exact I.
    + intros subscription s. apply subscribe_installs_last.
Qed.

Lemma teardown_installed_after_production_witness :
  (exists unsub s1,
      Observable._subscribeFn installing (fresh Demo.printing []) = Normal unsub s1 /\
      final (Observable.subscribe installing Demo.printing []) = installed unsub s1 /\
      Observer.trace (final (Observable.subscribe installing Demo.printing [])) =
        Observer.trace s1 ++ [SetTeardown] /\
      Observer._unsubscribe
        (Observer.this (final (Observable.subscribe installing Demo.printing []))) =
        Some unsub) /\
  normal (Observable.subscribe Demo.scenarioC Demo.printing []) /\
  exists s1,
    Observable._subscribeFn Demo.scenarioC (fresh Demo.printing []) =
      Normal Demo.teardown s1 /\
    Observer._unsubscribe (Observer.this s1) = None /\
    count is_install (Observer.trace s1) = 0 /\
    final (Observable.subscribe Demo.scenarioC Demo.printing []) =
      installed Demo.teardown s1 /\
    count is_install
      (Observer.trace (final (Observable.subscribe Demo.scenarioC Demo.printing []))) = 1.
Proof.
  split; [|split].
  - exact (proj1 teardown_installed_after_production nat string Demo.World
             installing Demo.printing [] _ _ eq_refl).
  - exact (proj1 (proj2 teardown_installed_after_production nat string Demo.World
                    [Next 1; Error "boom"; Next 2] Demo.teardown Demo.printing [])
                 printing_well_behaved).
  - exact (proj2 (proj2 teardown_installed_after_production nat string Demo.World
                    [Next 1; Error "boom"; Next 2] Demo.teardown Demo.printing [])
                 _ _ eq_refl).
Defined.

(** ** [Observable.from] *)

(** C2. Subscribing to [Observable.from(values)] with a next and a complete
    handler that return calls the next handler with each element of
    [values], once each and in the order of [values], then the complete
    handler once, and nothing else before the teardown is installed; the
    world is the one these handler calls build in that order. *)
Theorem from_delivers_in_order_then_completes :
  forall (T U World : Type) (console_log : string -> World -> World)
         (values : list T) (h : ObserverHandlers.t T U World)
         (f : T -> callback U World) (g : callback U World) (w : World),
    ObserverHandlers.next h = Some f ->
    ObserverHandlers.complete h = Some g ->
    (forall v, returns (f v)) ->
    returns g ->
    exists subscription s,
      Observable.subscribe (Observable.from console_log values) h w =
        Normal subscription s /\
      Observer.trace s = map CallNext values ++ [CallComplete; SetTeardown] /\
      Observer.world s = fst (g (fold_left (fun w v => fst (f v w)) values w)) /\
      Observer.isUnsubscribed (Observer.this s) = true.
Proof.
  intros T U World console_log values h f g w Hf Hg Hfr Hgr.
  rewrite subscribe_eq. unfold Observable.from, Observable._subscribeFn.
  unfold bind at 1.
  rewrite (@forEach_next_open T U World f values (fresh h w) eq_refl Hf Hfr).
  match goal with |- context [(Observer.complete ;; _) ?s0] => set (s1 := s0) end.
  unfold bind.
  rewrite (@complete_open_present T U World s1 g eq_refl Hg). unfold bind.
  rewrite (invoke_returns _ _ Hgr).
  rewrite unsubscribe_unset by reflexivity.
  do 2 eexists. split; [reflexivity|]. subst s1. simpl.
  rewrite <- app_assoc. repeat split.
Qed.

Lemma from_delivers_in_order_then_completes_witness :
  exists subscription s,
    Observable.subscribe (Observable.from Demo.console_log [1; 2; 3]) Demo.printing [] =
      Normal subscription s /\
    Observer.trace s = [CallNext 1; CallNext 2; CallNext 3; CallComplete; SetTeardown] /\
    Observer.world s = ["1"; "2"; "3"; "complete"] /\
    Observer.isUnsubscribed (Observer.this s) = true.
Proof.
  exact (from_delivers_in_order_then_completes Demo.console_log [1; 2; 3]
           Demo.printing [] eq_refl eq_refl
           (fun v w => eq_refl) (fun w => eq_refl)).
Defined.

(** ** A subscriber without handlers *)

(** C8, as the specification states it, fails in its last part: when
    [Observable.from(['x']).subscribe({})] returns, the observer has been
    closed by [complete()], the teardown action has not been called and
    nothing was printed. *)
Lemma close_skips_teardown_of_silent_subscriber :
  exists subscription s,
    Observable.subscribe (Observable.from Demo.console_log ["x"])
      (@ObserverHandlers.empty string string Demo.World) [] = Normal subscription s /\
    Observer.isUnsubscribed (Observer.this s) = true /\
    count is_teardown (Observer.trace s) = 0 /\
    Observer.world s = [].
Proof. eexists. eexists. repeat split. Qed.

(** C8, amended. [Observable.from(['x']).subscribe({})] returns without an
    exception; no handler is called and the world is untouched; the
    production has run to its end, leaving the observer closed; that close
    does not call the teardown action, which is installed afterwards; the
    teardown action runs, once, when the consumer calls
    [subscription.unsubscribe()]. *)
Theorem silent_subscriber :
  forall (U World : Type) (console_log : string -> World -> World) (w : World),
    exists subscription s teardown,
      Observable.subscribe (Observable.from console_log ["x"])
        (@ObserverHandlers.empty string U World) w = Normal subscription s /\
      Observer.this s =
        {| Observer.handlers := ObserverHandlers.empty;
           Observer.isUnsubscribed := true;
           Observer._unsubscribe := Some teardown |} /\
      Observer.world s = w /\
      Observer.trace s = [SetTeardown] /\
      Subscription.unsubscribe subscription s =
        Normal tt {| Observer.this := Observer.this s;
                     Observer.world := console_log "unsubscribed" w;
                     Observer.trace := [SetTeardown; CallTeardown] |}.
Proof.
  intros U World console_log w. do 3 eexists. repeat split.
Qed.

(** ** [Observable.from] without an explicit unsubscription *)

(** C9. A [subscribe] run on [Observable.from(values)], whatever the
    handlers do, never calls the teardown action: when the subscribe
    function returns, [complete()] has closed the observer and the teardown
    slot is still unset; [setUnsubscribe] runs after that, and is the last
    step of the run. With handlers that return, the run returns. *)
Theorem from_never_tears_down_unasked :
  forall (T U World : Type) (console_log : string -> World -> World)
         (values : list T) (h : ObserverHandlers.t T U World) (w : World),
    count is_teardown
      (Observer.trace (final (Observable.subscribe (Observable.from console_log values) h w)))
      = 0 /\
    (forall td s1,
        Observable._subscribeFn (Observable.from console_log values) (fresh h w) =
          Normal td s1 ->
        Observer.isUnsubscribed (Observer.this s1) = true /\
        Observer._unsubscribe (Observer.this s1) = None /\
        exists subscription,
          Observable.subscribe (Observable.from console_log values) h w =
            Normal subscription (installed td s1)) /\
    (ObserverHandlers.well_behaved h ->
     normal (Observable.subscribe (Observable.from console_log values) h w)).
Proof.
  intros T U World console_log values h w.
  set (calls := map (@Next T U) values ++ [Complete]).
  set (td0 := fun w0 : World => (console_log "unsubscribed" w0, @None (exn U))).
  assert (Hu : unset (final (forEach calls perform (fresh h w)))).
  { pose proof (forEach_unset calls (fresh_unset h w)) as Hu.
    destruct (forEach calls perform (fresh h w)); exact Hu. }
  split; [|split].
  - rewrite subscribe_from, subscribe_eq, scripted_eq. fold calls.
    destruct (forEach calls perform (fresh h w)) as [[] s1|x s1];
      cbn [final] in Hu; destruct Hu as (_ & Ht & _);
      cbn [final installed Observer.trace].
    + rewrite count_app, Ht. reflexivity.
    + exact Ht.
  - intros td s1 Hrun. split; [|split].
    + revert Hrun. unfold Observable.from, Observable._subscribeFn, bind.
      destruct (forEach values _ (fresh h w)) as [[] sa|x sa]; [|discriminate].
      destruct (Observer.complete sa) as [[] sb|x sb] eqn:Hc; [|discriminate].
      intros H. inversion H. subst. exact (complete_returned_closed _ Hc).
    + rewrite from_scripted, scripted_eq in Hrun. fold calls in Hrun, Hu.
      destruct (forEach calls perform (fresh h w)) as [[] s2|x s2]; [|discriminate].
      cbn [final] in Hu. inversion Hrun. subst. destruct Hu as (Hs & _). exact Hs.
    + rewrite subscribe_eq, Hrun. eexists. reflexivity.
  - intros Hh. rewrite subscribe_from.
    destruct (subscribe_scripted_returns calls td0 w Hh) as (p & _ & _ & _ & Hsub).
    fold calls. fold td0. rewrite Hsub. exact I.
Qed.

Lemma from_never_tears_down_unasked_witness :
  normal (Observable.subscribe (Observable.from Demo.console_log [1; 2; 3])
            Demo.printing []) /\
  exists td s1,
    Observable._subscribeFn (Observable.from Demo.console_log [1; 2; 3])
      (fresh Demo.printing []) = Normal td s1 /\
    Observer.isUnsubscribed (Observer.this s1) = true /\
    Observer._unsubscribe (Observer.this s1) = None /\
    exists subscription,
      Observable.subscribe (Observable.from Demo.console_log [1; 2; 3]) Demo.printing [] =
        Normal subscription (installed td s1).
Proof.
  split.
  - exact (proj2 (proj2 (from_never_tears_down_unasked Demo.console_log [1; 2; 3]
                           Demo.printing []))
                 printing_well_behaved).
  - do 2 eexists. split; [reflexivity|].
    exact (proj1 (proj2 (from_never_tears_down_unasked Demo.console_log [1; 2; 3]
                           Demo.printing []))
                 _ _ eq_refl).
Defined.

(** * Further properties of the code *)

Lemma completing_well_behaved : ObserverHandlers.well_behaved completing.
Proof.
  unfold ObserverHandlers.well_behaved, returns. simpl.
  repeat split; intros;
    match goal with H : _ = Some _ |- _ => inversion H; subst end;
    reflexivity.
Defined.

(** ** The closed flag *)

Section Closed.
Variables T U World : Type.
Implicit Types (s : Observer.config T U World) (m : method T U World).

Local Abbreviation isClosed s := (Observer.isUnsubscribed (Observer.this s)).
Local Abbreviation slot s := (Observer._unsubscribe (Observer.this s)).

Lemma closed_fixpoint s : isClosed s = true -> closed s = s.
Proof.
  destruct s as [[h b u] w tr]. simpl. intros H. subst b. reflexivity.
Qed.

Lemma dispatch_stays_closed m :
  triple (fun s => isClosed s = true) (dispatch m)
    (fun _ s => isClosed s = true) (fun _ s => isClosed s = true).
Proof.
  intros [[[hn he hc] b u] w tr] H. simpl in H. subst b.
  destruct m as [[v|err| |]|unsub]; unfold dispatch; run_call; split_cases; reflexivity.
Qed.

Lemma dispatch_closed_silent (l : list (event T U)) m :
  triple (fun s => isClosed s = true /\ filter is_handler (Observer.trace s) = l)
    (dispatch m)
    (fun _ s => isClosed s = true /\ filter is_handler (Observer.trace s) = l)
    (fun _ s => isClosed s = true /\ filter is_handler (Observer.trace s) = l).
Proof.
  intros [[[hn he hc] b u] w tr] [H Hl]. simpl in H, Hl. subst b.
  destruct m as [[v|err| |]|unsub]; unfold dispatch; run_call; split_cases;
    rewrite ?filter_app; simpl; rewrite ?app_nil_r; split; auto.
Qed.

Lemma perform_closed_unset (c : call T U) s :
  isClosed s = true -> slot s = None -> perform c s = Normal tt s.
Proof.
  intros Hc Hs. destruct c as [v|err| |]; simpl.
  - exact (next_closed _ _ Hc).
  - exact (error_closed _ _ Hc).
  - exact (complete_closed _ Hc).
  - rewrite (unsubscribe_unset _ Hs), (closed_fixpoint _ Hc). reflexivity.
Qed.

Lemma forEach_closed_unset (calls : list (call T U)) s :
  isClosed s = true -> slot s = None -> forEach calls perform s = Normal tt s.
Proof.
  intros Hc Hs. induction calls as [|c rest IH]; simpl.
  - reflexivity.
  - unfold bind. rewrite (perform_closed_unset c _ Hc Hs). exact IH.
Qed.
End Closed.

(** X1. The closed flag is never cleared: on a closed observer, after any
    sequence of calls of its public methods ([next], [error], [complete],
    [unsubscribe], [setUnsubscribe]), whether the sequence returns or is cut
    short by an exception, the observer is closed. *)
Theorem closed_is_permanent :
  forall (T U World : Type) (ms : list (method T U World))
         (s : Observer.config T U World),
    Observer.isUnsubscribed (Observer.this s) = true ->
    Observer.isUnsubscribed (Observer.this (final (forEach ms dispatch s))) = true.
Proof.
  intros T U World ms s H.
  assert (Ht : triple (fun s0 : Observer.config T U World =>
                         Observer.isUnsubscribed (Observer.this s0) = true)
                 (forEach ms dispatch)
                 (fun _ s0 => Observer.isUnsubscribed (Observer.this s0) = true)
                 (fun _ s0 => Observer.isUnsubscribed (Observer.this s0) = true))
    by (apply triple_forEach; apply dispatch_stays_closed).
  specialize (Ht s H). destruct (forEach ms dispatch s); exact Ht.
Qed.

Lemma closed_is_permanent_witness :
  Observer.isUnsubscribed
    (Observer.this
       (final (forEach [Signal (Next 2); SetUnsubscribe Demo.teardown;
                        Signal Complete; Signal Unsubscribe]
                       dispatch Sample.errored))) = true.
Proof. apply closed_is_permanent. reflexivity. Defined.

(** X2. On a closed observer no later call of a public method reaches a
    handler: whatever the sequence of calls, and whatever the handlers and
    the installed teardown action do, the handler calls in the trace are
    those made before. *)
Theorem closed_observer_calls_no_handler :
  forall (T U World : Type) (ms : list (method T U World))
         (s : Observer.config T U World),
    Observer.isUnsubscribed (Observer.this s) = true ->
    filter is_handler (Observer.trace (final (forEach ms dispatch s))) =
    filter is_handler (Observer.trace s).
Proof.
  intros T U World ms s H.
  set (l := filter is_handler (Observer.trace s)).
  assert (Ht : triple (fun s0 : Observer.config T U World =>
                         Observer.isUnsubscribed (Observer.this s0) = true /\
                         filter is_handler (Observer.trace s0) = l)
                 (forEach ms dispatch)
                 (fun _ s0 => Observer.isUnsubscribed (Observer.this s0) = true /\
                              filter is_handler (Observer.trace s0) = l)
                 (fun _ s0 => Observer.isUnsubscribed (Observer.this s0) = true /\
                              filter is_handler (Observer.trace s0) = l))
    by (apply triple_forEach; apply dispatch_closed_silent).
  specialize (Ht s (conj H eq_refl)). destruct (forEach ms dispatch s); apply Ht.
Qed.

Lemma closed_observer_calls_no_handler_witness :
  filter is_handler
    (Observer.trace
       (final (forEach [Signal (Next 2); SetUnsubscribe Demo.teardown;
                        Signal Complete; Signal Unsubscribe; Signal (Error "late")]
                       dispatch Sample.errored))) =
  [CallError "boom"].
Proof.
  exact (closed_observer_calls_no_handler
           [Signal (Next 2); SetUnsubscribe Demo.teardown;
            Signal Complete; Signal Unsubscribe; Signal (Error "late")]
           Sample.errored eq_refl).
Defined.

(** X3. A closed observer on which no teardown action is installed is
    inert: every sequence of [next], [error], [complete] and [unsubscribe]
    calls returns and leaves the observer, the world and the trace exactly
    as they were, even with handlers that would throw. *)
Theorem closed_without_teardown_is_inert :
  forall (T U World : Type) (calls : list (call T U))
         (s : Observer.config T U World),
    Observer.isUnsubscribed (Observer.this s) = true ->
    Observer._unsubscribe (Observer.this s) = None ->
    forEach calls perform s = Normal tt s.
Proof. intros T U World calls s. apply forEach_closed_unset. Qed.

Lemma closed_without_teardown_is_inert_witness :
  forEach [Next 2; Complete; Unsubscribe; Error "late"] perform Sample.errored =
  Normal tt Sample.errored.
Proof. apply closed_without_teardown_is_inert; reflexivity. Defined.

(** ** What a production delivers *)

Section Delivery.
Variables T U World : Type.
Implicit Types (s : Observer.config T U World) (h : ObserverHandlers.t T U World).

Local Abbreviation isClosed s := (Observer.isUnsubscribed (Observer.this s)).
Local Abbreviation slot s := (Observer._unsubscribe (Observer.this s)).
Local Abbreviation handlersOf s := (Observer.handlers (Observer.this s)).

(** A call on an open observer without teardown, with handlers that
    return: the handler call it makes, if [h] has the handler, and whether
    it closes. *)
Lemma perform_open_unset h (c : call T U) s :
  ObserverHandlers.well_behaved h ->
  handlersOf s = h -> isClosed s = false -> slot s = None ->
  exists s',
    perform c s = Normal tt s' /\
    handlersOf s' = h /\ slot s' = None /\
    isClosed s' = closing c /\
    Observer.trace s' = Observer.trace s ++ filter (heard h) (signals [c]).
Proof.
  intros (Hn & He & Hc) Hh Hopen Hslot.
  destruct s as [[h' b u] w tr]. simpl in Hh, Hopen, Hslot. subst h' b u.
  destruct h as [hn he hc]; simpl in Hn, He, Hc.
  destruct c as [v|err| |]; destruct hn as [fn|], he as [fe|], hc as [fc|];
    run_call;
    rewrite ?(Hn _ v eq_refl w), ?(He _ err eq_refl w), ?(Hc _ eq_refl w);
    simpl; rewrite ?app_nil_r; eexists; repeat split.
Qed.

Lemma signals_cons (c : call T U) (rest : list (call T U)) :
  signals (c :: rest) = signals [c] ++ (if closing c then [] else signals rest).
Proof. destruct c; reflexivity. Qed.

Lemma forEach_signals h (calls : list (call T U)) :
  ObserverHandlers.well_behaved h ->
  forall s,
    handlersOf s = h -> isClosed s = false -> slot s = None ->
    exists s',
      forEach calls perform s = Normal tt s' /\
      handlersOf s' = h /\ slot s' = None /\
      isClosed s' = existsb closing calls /\
      Observer.trace s' = Observer.trace s ++ filter (heard h) (signals calls).
Proof.
  intros Hwb. induction calls as [|c rest IH]; intros s Hh Hopen Hslot.
  - exists s. simpl. rewrite app_nil_r. repeat split; assumption.
  - destruct (@perform_open_unset h c s Hwb Hh Hopen Hslot)
      as (s1 & Hrun & Hh1 & Hs1 & Hc1 & Ht1).
    cbn [forEach existsb]. unfold bind. rewrite Hrun, signals_cons, filter_app.
    destruct (closing c) eqn:Hcl.
    + rewrite (forEach_closed_unset rest _ Hc1 Hs1).
      exists s1. simpl. rewrite app_nil_r. repeat split; assumption.
    + destruct (IH s1 Hh1 Hc1 Hs1) as (s' & Hrun' & Hh' & Hs' & Hc' & Ht').
      exists s'. rewrite Hrun', Ht', Ht1, <- app_assoc. repeat split; assumption.
Qed.

Lemma filter_heard_next h (values : list T) :
  filter (heard h) (map CallNext values) =
  if truthy (ObserverHandlers.next h) then map CallNext values else [].
Proof.
  induction values as [|v rest IH]; simpl.
  - destruct (truthy _); reflexivity.
  - rewrite IH. destruct (truthy _); reflexivity.
Qed.

Lemma signals_from (values : list T) :
  signals (map (@Next T U) values ++ [Complete]) = map CallNext values ++ [CallComplete].
Proof.
  induction values as [|v rest IH]; simpl; [reflexivity | rewrite IH; reflexivity].
Qed.

Lemma existsb_closing_from (values : list T) :
  existsb closing (map (@Next T U) values ++ [Complete]) = true.
Proof. induction values as [|v rest IH]; simpl; [reflexivity | exact IH]. Qed.
End Delivery.

(** X4. For a subscribe function that is a straight-line sequence of
    [next], [error], [complete] and [unsubscribe] calls on its observer, and
    handlers that return without calling the observer or the subscription:
    [subscribe] delivers exactly the signals sent up to and including the
    first call that closes the observer ([error], [complete] or
    [unsubscribe]), in the order sent, each to the handler of its kind if
    the record has one; it then installs the teardown action and returns,
    with the observer closed exactly if a closing call was made. *)
Theorem subscribe_delivers_until_closed :
  forall (T U World : Type) (calls : list (call T U)) (td : callback U World)
         (h : ObserverHandlers.t T U World) (w : World),
    ObserverHandlers.well_behaved h ->
    exists subscription s,
      Observable.subscribe (scripted calls td) h w = Normal subscription s /\
      Observer.trace s = filter (heard h) (signals calls) ++ [SetTeardown] /\
      Observer.isUnsubscribed (Observer.this s) = existsb closing calls.
Proof.
  intros T U World calls td h w Hh.
  destruct (@forEach_signals T U World h calls Hh (fresh h w) eq_refl eq_refl eq_refl)
    as (s1 & Hrun & _ & _ & Hc & Ht).
  rewrite subscribe_eq, scripted_eq, Hrun. do 2 eexists.
  split; [reflexivity|]. cbn [installed Observer.trace Observer.this Observer.isUnsubscribed].
  rewrite Ht, Hc. split; reflexivity.
Qed.

Lemma subscribe_delivers_until_closed_witness :
  exists subscription s,
    Observable.subscribe
      (scripted [Next 1; Next 2; Unsubscribe; Next 3; Complete] Demo.teardown)
      Demo.printing [] = Normal subscription s /\
    Observer.trace s = [CallNext 1; CallNext 2; SetTeardown] /\
    Observer.isUnsubscribed (Observer.this s) = true.
Proof.
  exact (@subscribe_delivers_until_closed nat string Demo.World
           [Next 1; Next 2; Unsubscribe; Next 3; Complete] Demo.teardown
           Demo.printing [] printing_well_behaved).
Defined.

(** X5. Once the production has closed the observer, the rest of the
    subscribe function is without effect: if the calls [calls1] return with
    the observer closed, [subscribe] on a subscribe function that goes on
    with any further calls gives the same result as on the one that stops
    there, whatever the handlers do. *)
Theorem calls_after_close_are_dropped :
  forall (T U World : Type) (calls1 calls2 : list (call T U)) (td : callback U World)
         (h : ObserverHandlers.t T U World) (w : World)
         (s1 : Observer.config T U World),
    forEach calls1 perform (fresh h w) = Normal tt s1 ->
    Observer.isUnsubscribed (Observer.this s1) = true ->
    Observable.subscribe (scripted (calls1 ++ calls2) td) h w =
    Observable.subscribe (scripted calls1 td) h w.
Proof.
  intros T U World calls1 calls2 td h w s1 Hrun Hc.
  pose proof (forEach_unset calls1 (fresh_unset h w)) as Hu.
  rewrite Hrun in Hu. destruct Hu as (Hs & _).
  rewrite !subscribe_eq, !scripted_eq, forEach_app. unfold bind.
  rewrite Hrun, (forEach_closed_unset calls2 _ Hc Hs). reflexivity.
Qed.

Lemma calls_after_close_are_dropped_witness :
  Observable.subscribe (scripted ([Next 1; Error "boom"] ++ [Next 2; Complete])
                                 Demo.teardown) Demo.printing [] =
  Observable.subscribe (scripted [Next 1; Error "boom"] Demo.teardown) Demo.printing [].
Proof.
  apply (@calls_after_close_are_dropped nat string Demo.World
           [Next 1; Error "boom"] [Next 2; Complete] Demo.teardown Demo.printing []
           (final (forEach [Next 1; Error "boom"] perform (fresh Demo.printing []))));
    reflexivity.
Defined.

(** X6. The three handlers of [Observable.from(values)]'s subscriber are
    optional one by one: with handlers that return, a next handler, if
    present, is called with every value in order, a complete handler, if
    present, is called once after them, an absent one is skipped, and the
    run ends with the observer closed and the teardown action installed. *)
Theorem from_with_optional_handlers :
  forall (T U World : Type) (console_log : string -> World -> World)
         (values : list T) (h : ObserverHandlers.t T U World) (w : World),
    ObserverHandlers.well_behaved h ->
    exists subscription s,
      Observable.subscribe (Observable.from console_log values) h w =
        Normal subscription s /\
      Observer.trace s =
        (if truthy (ObserverHandlers.next h) then map CallNext values else []) ++
        (if truthy (ObserverHandlers.complete h) then [CallComplete] else []) ++
        [SetTeardown] /\
      Observer.isUnsubscribed (Observer.this s) = true.
Proof.
  intros T U World console_log values h w Hh.
  set (calls := map (@Next T U) values ++ [Complete]).
  destruct (@forEach_signals T U World h calls Hh (fresh h w) eq_refl eq_refl eq_refl)
    as (s1 & Hrun & _ & _ & Hc & Ht).
  rewrite subscribe_from, subscribe_eq, scripted_eq. fold calls. rewrite Hrun.
  do 2 eexists. split; [reflexivity|].
  cbn [installed Observer.trace Observer.this Observer.isUnsubscribed].
  rewrite Ht, Hc. unfold calls.
  rewrite signals_from, filter_app, filter_heard_next, existsb_closing_from.
  simpl. rewrite <- app_assoc. split; [|reflexivity].
  destruct (truthy (ObserverHandlers.complete h)); reflexivity.
Qed.

Lemma from_with_optional_handlers_witness :
  exists subscription s,
    Observable.subscribe (Observable.from Demo.console_log [1; 2; 3]) completing [] =
      Normal subscription s /\
    Observer.trace s = [CallComplete; SetTeardown] /\
    Observer.isUnsubscribed (Observer.this s) = true.
Proof.
  exact (@from_with_optional_handlers nat string Demo.World
           Demo.console_log [1; 2; 3] completing [] completing_well_behaved).
Defined.

(** ** Handlers [Observable.from] never calls, and handlers that throw *)

Section Faults.
Variables T U World : Type.
Implicit Types (s : Observer.config T U World) (h : ObserverHandlers.t T U World).

Local Abbreviation isClosed s := (Observer.isUnsubscribed (Observer.this s)).
Local Abbreviation slot s := (Observer._unsubscribe (Observer.this s)).
Local Abbreviation handlersOf s := (Observer.handlers (Observer.this s)).

Lemma next_no_error_call (v : T) :
  triple (fun s => filter is_error_call (Observer.trace s) = [])
    (Observer.next v)
    (fun _ s => filter is_error_call (Observer.trace s) = [])
    (fun _ s => filter is_error_call (Observer.trace s) = []).
Proof.
  intros [[[hn he hc] b u] w tr] H. simpl in H.
  run_call; split_cases; rewrite ?filter_app, ?H; reflexivity.
Qed.

Lemma complete_no_error_call :
  triple (fun s => filter is_error_call (Observer.trace s) = [])
    (@Observer.complete T U World)
    (fun _ s => filter is_error_call (Observer.trace s) = [])
    (fun _ s => filter is_error_call (Observer.trace s) = []).
Proof.
  intros [[[hn he hc] b u] w tr] H. simpl in H.
  run_call; split_cases; rewrite ?filter_app, ?H; reflexivity.
Qed.

(** [values.forEach((value) => observer.next(value))] with a next handler
    that returns on the values of [pre] and throws on [v]. *)
Lemma forEach_next_until_throw (f : T -> callback U World) (v : T) (post : list T) x :
  forall (pre : list T) s,
    isClosed s = false ->
    ObserverHandlers.next (handlersOf s) = Some f ->
    (forall a, In a pre -> returns (f a)) ->
    snd (f v (fold_left (fun w a => fst (f a w)) pre (Observer.world s))) = Some x ->
    forEach (pre ++ v :: post) (fun value => Observer.next value) s =
      Throw x {| Observer.this := Observer.this s;
                 Observer.world :=
                   fst (f v (fold_left (fun w a => fst (f a w)) pre (Observer.world s)));
                 Observer.trace := Observer.trace s ++ map CallNext pre ++ [CallNext v] |}.
Proof.
  induction pre as [|a pre IH]; intros s Hopen Hf Hret Hthrow.
  - cbn [app forEach]. unfold bind. rewrite (next_open _ _ Hopen Hf).
    unfold Observer.invoke. simpl in Hthrow |- *. rewrite Hthrow. reflexivity.
  - cbn [app forEach]. unfold bind.
    rewrite (next_open _ _ Hopen Hf), (invoke_returns _ _ (Hret a (or_introl eq_refl))).
    rewrite IH; cbn [Observer.this Observer.world Observer.trace fold_left map];
      try assumption.
    + rewrite <- app_assoc. reflexivity.
    + intros b Hb. apply Hret. right. exact Hb.
Qed.
End Faults.

(** X7. [Observable.from] never signals an error: in a [subscribe] run on
    [Observable.from(values)] the error handler is not called, whatever the
    values and whatever the handlers do. *)
Theorem from_never_calls_error_handler :
  forall (T U World : Type) (console_log : string -> World -> World)
         (values : list T) (h : ObserverHandlers.t T U World) (w : World),
    filter is_error_call
      (Observer.trace (final (Observable.subscribe (Observable.from console_log values) h w)))
    = [].
Proof.
  intros T U World console_log values h w.
  assert (Hp : triple (fun s : Observer.config T U World =>
                         filter is_error_call (Observer.trace s) = [])
                 (forEach values (fun value => Observer.next value) ;; Observer.complete)
                 (fun _ s => filter is_error_call (Observer.trace s) = [])
                 (fun _ s => filter is_error_call (Observer.trace s) = [])).
  { eapply triple_bind.
    - apply triple_forEach. apply next_no_error_call.
    - intros []. apply complete_no_error_call. }
  specialize (Hp (fresh h w) eq_refl).
  rewrite subscribe_eq. unfold Observable.from, Observable._subscribeFn.
  unfold bind in Hp |- *.
  destruct (forEach values _ (fresh h w)) as [[] s1|x s1]; [|exact Hp].
  destruct (Observer.complete s1) as [[] s2|x s2]; [|exact Hp].
  cbn [ret final installed Observer.trace]. rewrite filter_app, Hp. reflexivity.
Qed.

(** X8. A next handler that throws ends [subscribe] on
    [Observable.from(values)] with its exception: the values before the
    faulty one have been delivered in order, the faulty one was the last
    call, the later values and [complete] are not delivered, the observer is
    still open and no teardown action has been installed. *)
Theorem next_handler_fault_aborts_from :
  forall (T U World : Type) (console_log : string -> World -> World)
         (pre : list T) (v : T) (post : list T)
         (h : ObserverHandlers.t T U World) (f : T -> callback U World)
         (x : exn U) (w : World),
    ObserverHandlers.next h = Some f ->
    (forall a, In a pre -> returns (f a)) ->
    snd (f v (fold_left (fun w a => fst (f a w)) pre w)) = Some x ->
    Observable.subscribe (Observable.from console_log (pre ++ v :: post)) h w =
      Throw x {| Observer.this := Observer.new h;
                 Observer.world := fst (f v (fold_left (fun w a => fst (f a w)) pre w));
                 Observer.trace := map CallNext pre ++ [CallNext v] |}.
Proof.
  intros T U World console_log pre v post h f x w Hf Hret Hthrow.
  rewrite subscribe_eq. unfold Observable.from, Observable._subscribeFn.
  unfold bind at 1.
  rewrite (@forEach_next_until_throw T U World f v post x pre (fresh h w)
             eq_refl Hf Hret Hthrow).
  reflexivity.
Qed.

Lemma next_handler_fault_aborts_from_witness :
  Observable.subscribe (Observable.from Demo.console_log ([1] ++ 2 :: [3])) picky [] =
    Throw (Thrown "fault")
      {| Observer.this := Observer.new picky;
         Observer.world := ["1"];
         Observer.trace := [CallNext 1; CallNext 2] |}.
Proof.
  apply (@next_handler_fault_aborts_from nat string Demo.World Demo.console_log
           [1] 2 [3] picky
           (fun v w => if Nat.eqb v 2
                       then (w, Some (Thrown "fault"))
                       else (Demo.console_log (Demo.digit v) w, None))
           (Thrown "fault") [] eq_refl).
  - intros a [Ha|[]] w. subst a. reflexivity.
  - reflexivity.
Defined.



(** ** [unsubscribe] and [setUnsubscribe] *)



(** X11. [setUnsubscribe] overwrites: after two installations in a row,
    [unsubscribe()] calls the action installed last, once, and never the one
    installed first. *)
Theorem last_installed_teardown_runs :
  forall (T U World : Type) (s : Observer.config T U World)
         (first last : callback U World),
    Observer.world
      (final ((Observer.setUnsubscribe first ;; Observer.setUnsubscribe last ;;
               Observer.unsubscribe) s)) = fst (last (Observer.world s)) /\
    Observer.trace
      (final ((Observer.setUnsubscribe first ;; Observer.setUnsubscribe last ;;
               Observer.unsubscribe) s)) =
      Observer.trace s ++ [SetTeardown; SetTeardown; CallTeardown] /\
    Observer._unsubscribe
      (Observer.this
         (final ((Observer.setUnsubscribe first ;; Observer.setUnsubscribe last ;;
                  Observer.unsubscribe) s))) = Some last /\
    Observer.isUnsubscribed
      (Observer.this
         (final ((Observer.setUnsubscribe first ;; Observer.setUnsubscribe last ;;
                  Observer.unsubscribe) s))) = true.
Proof.
  intros T U World [[h b u] w tr] first last. run_call.
  destruct (snd (last w)); simpl; rewrite <- !app_assoc; repeat split.
Qed.

(** ** The usage script *)

Lemma fold_left_handleRequest (Request U : Type) (rs : list Request)
    (w : Usage.World Request U) :
  fold_left (fun w0 request => fst (Usage.returned (Usage.handleRequest request w0))) rs w =
  w ++ map (fun request => Usage.Log [Usage.Text "Request handled:"; Usage.Object request]) rs.
Proof.
  revert w. induction rs as [|r rs IH]; intros w; simpl.
  - rewrite app_nil_r. reflexivity.
  - rewrite IH. unfold Usage.handleRequest. simpl. rewrite <- app_assoc. reflexivity.
Qed.

(** X12. The script at the end of the source, for any list of requests in
    [requestsMock] and any earlier console content: it returns; the console
    gains one ['Request handled:'] line per request, in the order of the
    list, then ['complete'], then ['unsubscribed'] once, printed by the
    explicit [subscription.unsubscribe()]; [handleError] is never run, so
    nothing goes to [console.error]. *)
Theorem usage_output :
  forall (Request U : Type) (requestsMock : list Request) (w : Usage.World Request U),
    exists s,
      @Usage.main Request U requestsMock w = Normal tt s /\
      Observer.world s =
        w ++ map (fun request =>
                    Usage.Log [Usage.Text "Request handled:"; Usage.Object request])
                 requestsMock
          ++ [Usage.Log [Usage.Text "complete"]; Usage.Log [Usage.Text "unsubscribed"]] /\
      Observer.trace s =
        map CallNext requestsMock ++ [CallComplete; SetTeardown; CallTeardown] /\
      Observer.isUnsubscribed (Observer.this s) = true.
Proof.
  intros Request U requestsMock w. unfold Usage.main, Usage.requests.
  rewrite subscribe_eq. unfold Observable.from, Observable._subscribeFn.
  unfold bind at 1.
  rewrite (@forEach_next_open Request U (Usage.World Request U)
             (fun request w0 => Usage.returned (Usage.handleRequest request w0))
             requestsMock (fresh (Usage.handlers Request U) w) eq_refl eq_refl)
    by (intros v w0; reflexivity).
  match goal with |- context [(Observer.complete ;; _) ?s0] => set (s1 := s0) end.
  unfold bind.
  rewrite (@complete_open_present Request U (Usage.World Request U) s1
             (fun w0 => (Usage.handleComplete w0, None)) eq_refl eq_refl).
  unfold bind. rewrite invoke_returns by (intros w0; reflexivity).
  rewrite unsubscribe_unset by reflexivity.
  cbn [ret Subscription.unsubscribe].
  match goal with |- context [Observer.unsubscribe ?s0] =>
    rewrite (@unsubscribe_set _ _ _ s0 _ eq_refl)
  end.
  rewrite invoke_returns by (intros w0; reflexivity).
  eexists. split; [reflexivity|]. subst s1. simpl.
  rewrite fold_left_handleRequest. unfold Usage.handleComplete, Usage.console_log.
  rewrite <- !app_assoc. repeat split.
Qed.
